(** * A shallow embedding of the HTTP server of src/app/server.go

    The model follows the last (routed) version of the server: the
    [Router] with its route table, [ServeHTTP], [handleCompression],
    [writeResponse], [parseHeaders] and the five handlers.

    Go strings are byte strings; they are modelled as Rocq [string]s,
    whose [ascii] characters are exactly 8-bit bytes, so [len] of a Go
    string is [String.length].  Where the code reads a string as text
    ([strings.Fields], [strings.ToLower]) the bytes are decoded as UTF-8
    the way Go's [utf8] package does, invalid bytes as U+FFFD; the case
    mapping of [unicode.ToLower] beyond ASCII is the [CaseTable] the
    development is parametric in.  A Go [map[string]string] is a stdpp
    [gmap string string]; the route table [map[string]func] is a
    [gmap string Handler]. *)

From Stdlib Require Import ZArith String Ascii DecimalString DecimalPos DecimalZ List.
From stdpp Require Import gmap strings.

Open Scope string_scope.

(* ------------------------------------------------------------------ *)
(** ** Byte-string primitives of Go's [strings] and [fmt] packages    *)
(* ------------------------------------------------------------------ *)

Definition CR : ascii := Ascii.ascii_of_nat 13.
Definition LF : ascii := Ascii.ascii_of_nat 10.
Definition CRLF : string := String CR (String LF EmptyString).

(** Prepend a byte to the first piece of a split result. *)
Definition consHead (c : ascii) (l : list string) : list string :=
  match l with
  | [] => [String c EmptyString]
  | h :: t => String c h :: t
  end.

(** [strings.Split(s, sep)] for a one-byte separator selected by [isSep]
    (also used with a predicate for [strings.Fields]). *)
Fixpoint splitBy (isSep : ascii -> bool) (s : string) : list string :=
  match s with
  | EmptyString => [EmptyString]
  | String c r =>
      if isSep c then EmptyString :: splitBy isSep r
      else consHead c (splitBy isSep r)
  end.

Definition isSlash (c : ascii) : bool := Ascii.eqb c "/"%char.

(** [strings.Split(s, sep)] for a two-byte separator [a b]: occurrences
    are found left to right and do not overlap. *)
Fixpoint split2 (a b : ascii) (s : string) : list string :=
  match s with
  | String x (String y rest as tl) =>
      if Ascii.eqb x a && Ascii.eqb y b then EmptyString :: split2 a b rest
      else consHead x (split2 a b tl)
  | String x EmptyString => [String x EmptyString]
  | EmptyString => [EmptyString]
  end.

(** [strings.SplitN(s, sep, 2)] for a two-byte separator [a b]: the
    string before the first occurrence and everything after it, or the
    one-element result [[s]] when there is no occurrence. *)
Fixpoint splitN2 (a b : ascii) (s : string) : list string :=
  match s with
  | String x (String y rest as tl) =>
      if Ascii.eqb x a && Ascii.eqb y b then [EmptyString; rest]
      else consHead x (splitN2 a b tl)
  | String x EmptyString => [String x EmptyString]
  | EmptyString => [EmptyString]
  end.

(** *** UTF-8 decoding ([unicode/utf8]) *)

(** A byte as the integer it holds. *)
Definition byteZ (c : ascii) : Z := Z.of_nat (Ascii.nat_of_ascii c).

(** The byte [byte(z)] for [0 <= z < 256]. *)
Definition zbyte (z : Z) : ascii := Ascii.ascii_of_nat (Z.to_nat z).

Definition inRange (lo hi x : Z) : bool :=
  ((lo <=? x) && (x <=? hi))%Z.

(** [utf8.RuneError], U+FFFD. *)
Definition RuneError : Z := 65533.

(** The size that [utf8.first] gives a leading byte: 1 for ASCII, 2 for
    C2..DF, 3 for E0..EF, 4 for F0..F4, and 0 for a byte that starts no
    sequence (80..C1, F5..FF). *)
Definition runeSize (x : Z) : Z :=
  (if x <? 128 then 1
  else if inRange 194 223 x then 2
  else if inRange 224 239 x then 3
  else if inRange 240 244 x then 4
  else 0)%Z.

(** [utf8.acceptRanges]: the bounds of the second byte after a leading
    byte (E0, ED, F0 and F4 narrow them, which rules out overlong forms,
    surrogates and runes above U+10FFFF). *)
Definition acceptLo (x : Z) : Z :=
  (if x =? 224 then 160 else if x =? 240 then 144 else 128)%Z.

Definition acceptHi (x : Z) : Z :=
  (if x =? 237 then 159 else if x =? 244 then 143 else 191)%Z.

(** [for i, r := range s], i.e. repeated [utf8.DecodeRuneInString]: the
    runes of [s], each with the bytes it is decoded from.  Every failure
    (a byte that starts no sequence, a short input, a second, third or
    fourth byte out of its range) gives [RuneError] of width 1. *)
Fixpoint runes (s : string) : list (Z * string) :=
  (match s with
  | EmptyString => []
  | String c0 r0 =>
      let x0 := byteZ c0 in
      if x0 <? 128 then (x0, String c0 EmptyString) :: runes r0
      else if runeSize x0 =? 0 then (RuneError, String c0 EmptyString) :: runes r0
      else match r0 with
      | EmptyString => (RuneError, String c0 EmptyString) :: runes r0
      | String c1 r1 =>
          let x1 := byteZ c1 in
          if negb (inRange (acceptLo x0) (acceptHi x0) x1)
          then (RuneError, String c0 EmptyString) :: runes r0
          else if runeSize x0 =? 2 then
            (Z.lor (Z.shiftl (Z.land x0 31) 6) (Z.land x1 63),
             String c0 (String c1 EmptyString)) :: runes r1
          else match r1 with
          | EmptyString => (RuneError, String c0 EmptyString) :: runes r0
          | String c2 r2 =>
              let x2 := byteZ c2 in
              if negb (inRange 128 191 x2)
              then (RuneError, String c0 EmptyString) :: runes r0
              else if runeSize x0 =? 3 then
                (Z.lor (Z.lor (Z.shiftl (Z.land x0 15) 12)
                              (Z.shiftl (Z.land x1 63) 6)) (Z.land x2 63),
                 String c0 (String c1 (String c2 EmptyString))) :: runes r2
              else match r2 with
              | EmptyString => (RuneError, String c0 EmptyString) :: runes r0
              | String c3 r3 =>
                  let x3 := byteZ c3 in
                  if negb (inRange 128 191 x3)
                  then (RuneError, String c0 EmptyString) :: runes r0
                  else
                    (Z.lor (Z.lor (Z.lor (Z.shiftl (Z.land x0 7) 18)
                                         (Z.shiftl (Z.land x1 63) 12))
                                  (Z.shiftl (Z.land x2 63) 6)) (Z.land x3 63),
                     String c0 (String c1 (String c2 (String c3 EmptyString))))
                    :: runes r3
              end
          end
      end
  end)%Z.

(** [utf8.AppendRune], as [strings.Builder.WriteRune] uses it, for a
    rune [r >= 0]: a rune above U+10FFFF or a surrogate is written as
    [RuneError]. *)
Definition encodeRune (r : Z) : string :=
  (if r <? 128 then String (zbyte r) EmptyString
  else if r <? 2048 then
    String (zbyte (Z.lor 192 (Z.shiftr r 6)))
      (String (zbyte (Z.lor 128 (Z.land r 63))) EmptyString)
  else
    let r := if (1114111 <? r) || inRange 55296 57343 r then RuneError else r in
    if r <? 65536 then
      String (zbyte (Z.lor 224 (Z.shiftr r 12)))
        (String (zbyte (Z.lor 128 (Z.land (Z.shiftr r 6) 63)))
          (String (zbyte (Z.lor 128 (Z.land r 63))) EmptyString))
    else
      String (zbyte (Z.lor 240 (Z.shiftr r 18)))
        (String (zbyte (Z.lor 128 (Z.land (Z.shiftr r 12) 63)))
          (String (zbyte (Z.lor 128 (Z.land (Z.shiftr r 6) 63)))
            (String (zbyte (Z.lor 128 (Z.land r 63))) EmptyString))))%Z.

(** The ASCII test of [strings.Fields] and [strings.ToLower]: no byte is
    [>= utf8.RuneSelf]. *)
Fixpoint isASCII (s : string) : bool :=
  match s with
  | EmptyString => true
  | String c r => (Ascii.nat_of_ascii c <? 128)%nat && isASCII r
  end.

(** *** [strings.Fields] *)

(** [asciiSpace]: '\t', '\n', '\v', '\f', '\r' and ' '. *)
Definition asciiSpace (c : ascii) : bool :=
  let n := Ascii.nat_of_ascii c in
  (9 <=? n)%nat && (n <=? 13)%nat || (n =? 32)%nat.

(** [unicode.IsSpace]: in Latin-1 the six ASCII spaces, U+0085 and
    U+00A0; above it the other runes of the [White_Space] table, U+1680,
    U+2000..U+200A, U+2028, U+2029, U+202F, U+205F and U+3000. *)
Definition unicodeIsSpace (r : Z) : bool :=
  (if inRange 0 255 r then
    inRange 9 13 r || (r =? 32) || (r =? 133) || (r =? 160)
  else
    (r =? 5760) || inRange 8192 8202 r || inRange 8232 8233 r
    || (r =? 8239) || (r =? 8287) || (r =? 12288))%Z.

(** [strings.FieldsFunc] over the decoded runes: [cur] is the field
    being read, if any; a rune satisfying [f] ends it. *)
Fixpoint fieldsFunc (f : Z -> bool) (rs : list (Z * string))
    (cur : option string) : list string :=
  match rs with
  | [] => match cur with Some w => [w] | None => [] end
  | (r, bs) :: t =>
      if f r then
        match cur with
        | Some w => w :: fieldsFunc f t None
        | None => fieldsFunc f t None
        end
      else fieldsFunc f t (Some (match cur with Some w => w ++ bs | None => bs end))
  end.

(** [strings.Fields]: for an ASCII string, the maximal runs of bytes
    outside [asciiSpace]; otherwise [FieldsFunc(s, unicode.IsSpace)]. *)
Definition fields (s : string) : list string :=
  if isASCII s then
    filter (fun w => negb (String.eqb w EmptyString)) (splitBy asciiSpace s)
  else fieldsFunc unicodeIsSpace (runes s) None.

(** *** [strings.ToLower] *)

(** [unicode.To(LowerCase, r)] for a rune above ASCII: the lookup in the
    case table [unicode.CaseRanges], which Go generates from the Unicode
    Character Database.  The table is data of Go's library, not code of
    the server: the development is parametric in it, so what is proved
    holds for the table of any Go release. *)
Class CaseTable := caseLower : Z -> Z.

(** [unicode.ToLower]. *)
Definition unicodeToLower {CT : CaseTable} (r : Z) : Z :=
  (if r <=? 127 then (if inRange 65 90 r then r + 32 else r)
  else caseLower r)%Z.

(** [strings.Map(mapping, s)]: each decoded rune [c] (an invalid byte
    decodes as [RuneError]) is replaced by the encoding of [mapping c],
    or dropped when that is negative.  Go copies the unchanged prefix of
    [s] instead of re-encoding it; the bytes are the same, since a rune
    decoded without error re-encodes to the bytes it came from. *)
Definition stringsMap (mapping : Z -> Z) (s : string) : string :=
  (String.concat ""
    (map (fun rb => let r := mapping (fst rb) in
                    if r <? 0 then EmptyString else encodeRune r)
         (runes s)))%Z.

(** The ASCII path of [strings.ToLower]: 'A'..'Z' to 'a'..'z'. *)
Definition lowerAscii (c : ascii) : ascii :=
  let n := Ascii.nat_of_ascii c in
  if (65 <=? n)%nat && (n <=? 90)%nat then Ascii.ascii_of_nat (n + 32) else c.

Fixpoint asciiLower (s : string) : string :=
  match s with
  | EmptyString => EmptyString
  | String c r => String (lowerAscii c) (asciiLower r)
  end.

(** [strings.ToLower]. *)
Definition toLower {CT : CaseTable} (s : string) : string :=
  if isASCII s then asciiLower s else stringsMap unicodeToLower s.

(** [fmt.Sprintf("%d", z)]. *)
Definition itoa (z : Z) : string := NilZero.string_of_int (Z.to_int z).

(** [len(s)] of a Go string, an [int]. *)
Definition len (s : string) : Z := Z.of_nat (String.length s).

(* ------------------------------------------------------------------ *)
(** ** Data model                                                       *)
(* ------------------------------------------------------------------ *)

Record Request := mkRequest {
  path : string;
  headers : gmap string string;
  body : string
}.

Record Response := mkResponse {
  statusCode : Z;
  reason : string;
  contentType : string;
  resBody : string
}.

Record httpHeader := mkHeader { name : string; value : string }.

(** [func (h *httpHeader) String() string]. *)
Definition headerString (h : httpHeader) : string :=
  name h ++ ": " ++ value h ++ CRLF.

(** [writeResponse]: the bytes handed to [conn.Write]. *)
Definition writeResponse (statusCode : Z) (statusReason body : string)
    (hs : list httpHeader) : string :=
  "HTTP/1.1 " ++ itoa statusCode ++ " " ++ statusReason ++ CRLF
  ++ String.concat "" (map headerString hs)
  ++ CRLF ++ body ++ CRLF.

(** [parseHeaders]: later lines overwrite earlier ones in the map. *)
Definition parseHeaders {CT : CaseTable} (headerLines : list string)
    : gmap string string :=
  fold_left
    (fun (hs : gmap string string) line =>
       if String.eqb line EmptyString then hs
       else match splitN2 ":" " " line with
            | [k; v] => <[toLower k := toLower v]> hs
            | _ => hs
            end)
    headerLines ∅.

(** [handleCompression]: appends the [Content-Encoding] header when the
    [accept-encoding] request header, lowercased, is exactly ["gzip"].
    The pointer [h] is modelled by returning the updated header list
    next to the function's own [(bool, string)] result. *)
Definition handleCompression {CT : CaseTable} (r : Request) (h : list httpHeader)
    : (bool * string) * list httpHeader :=
  match headers r !! "accept-encoding" with
  | Some encoding =>
      if String.eqb (toLower encoding) "gzip"
      then ((true, ""), app h [mkHeader "Content-Encoding" "gzip"])
      else ((false, ""), h)
  | None => ((false, ""), h)
  end.

(* ------------------------------------------------------------------ *)
(** ** Handlers, router and dispatch                                    *)
(* ------------------------------------------------------------------ *)

(** The file handlers reach two ambient resources: [os.Args] and the
    file system.  The file system is the runtime's byte storage: any
    state [FS] with a read that yields the data or the error's text and
    a write that yields the new state and possibly an error. *)
Inductive ioResult := IOk (data : string) | IErr (msg : string).

Section Server.

Context {CT : CaseTable}.
Variable FS : Type.
Variable readFile : FS -> string -> ioResult.
Variable writeFile : FS -> string -> string -> FS * option string.

(** A Go handler, a [func] from a request pointer to a [Response], that may touch [os.Args] and the
    file system. *)
Definition Handler : Type := list string -> Request -> FS -> Response * FS.

(** [if len(os.Args) < 3 { dirPath = "" } else { dirPath = os.Args[2] }] *)
Definition dirPathOf (args : list string) : string :=
  match args with
  | _ :: _ :: d :: _ => d
  | _ => ""
  end.

Definition echoHandler : Handler := fun _ r st =>
  match splitBy isSlash (path r) with
  | [_; _; v] => (mkResponse 200 "OK" "text/plain" v, st)
  | _ => (mkResponse 404 "Not Found" "text/plain" "Not Found", st)
  end.

Definition filesGetHandler : Handler := fun args r st =>
  match splitBy isSlash (path r) with
  | [_; _; fileName] =>
      match readFile st (dirPathOf args ++ fileName) with
      | IErr e => (mkResponse 404 "Not Found" "text/plain" e, st)
      | IOk data => (mkResponse 200 "OK" "application/octet-stream" data, st)
      end
  | _ => (mkResponse 404 "Not Found" "text/plain" "Not Found", st)
  end.

(** The error of [os.WriteFile] is discarded. *)
Definition filesPostHandler : Handler := fun args r st =>
  match splitBy isSlash (path r) with
  | [_; _; fileName] =>
      let '(st', _) := writeFile st (dirPathOf args ++ fileName) (body r) in
      (mkResponse 201 "Created" "text/plain" "saved", st')
  | _ => (mkResponse 404 "Not Found" "text/plain" "Not Found", st)
  end.

Definition userAgentHandler : Handler := fun _ r st =>
  match headers r !! "user-agent" with
  | None => (mkResponse 400 "Not Found" "text/plain"
               "User-Agent header not found", st)
  | Some userAgent => (mkResponse 200 "OK" "text/plain" userAgent, st)
  end.

Definition mainPageHandler : Handler := fun _ _ st =>
  (mkResponse 200 "OK" "text/html" "<h1>Hello World</h1>", st).

Record Router := mkRouter { routes : gmap string Handler }.

Definition NewRouter : Router := mkRouter ∅.

(** [r.routes[method+path] = handler]: re-registration overwrites. *)
Definition HandleFunc (method p : string) (handler : Handler) (r : Router)
    : Router :=
  mkRouter (<[method ++ p := handler]> (routes r)).

(** The route table built by [main]. *)
Definition mainRouter : Router :=
  HandleFunc "POST" "/files" filesPostHandler
  (HandleFunc "GET" "/files" filesGetHandler
  (HandleFunc "GET" "/user-agent" userAgentHandler
  (HandleFunc "GET" "/echo" echoHandler
  (HandleFunc "GET" "/" mainPageHandler NewRouter)))).

(** The part of [ServeHTTP] after the request line has been decoded:
    the route lookup, the handler call, the content headers, the
    negotiation and [writeResponse].  [None] means nothing is written. *)
Definition dispatch (rt : Router) (args : list string) (st : FS)
    (method p : string) (hs : gmap string string) (b : string)
    : option string * FS :=
  match splitBy isSlash p with
  | [] | [_] => (None, st)
  | _ :: seg :: _ =>
      match routes rt !! (method ++ "/" ++ seg) with
      | None => (Some (writeResponse 404 "Not Found" "" []), st)
      | Some handler =>
          let req := mkRequest p hs b in
          let '(res, st') := handler args req st in
          let headersToWrite :=
            [mkHeader "Content-Type" (contentType res);
             mkHeader "Content-Length" (itoa (len (resBody res)))] in
          let '(_, headersToWrite') := handleCompression req headersToWrite in
          (Some (writeResponse (statusCode res) (reason res) (resBody res)
                   headersToWrite'), st')
      end
  end.

(** The decoding part of [ServeHTTP]: method, path, headers and body, or
    [None] when the request line has fewer than two fields. *)
Definition decode (request : string)
    : option (string * string * gmap string string * string) :=
  let parts := split2 CR LF request in
  match fields (hd "" parts) with
  | method :: p :: _ =>
      Some (method, p, parseHeaders (tl parts), List.last parts "")
  | _ => None
  end.

(** [func (r *Router) ServeHTTP(conn net.Conn, request string)]. *)
Definition ServeHTTP (rt : Router) (args : list string) (st : FS)
    (request : string) : option string * FS :=
  match decode request with
  | None => (None, st)
  | Some (method, p, hs, b) => dispatch rt args st method p hs b
  end.

End Server.

Arguments echoHandler {FS}.
Arguments filesGetHandler {FS} readFile.
Arguments filesPostHandler {FS} writeFile.
Arguments userAgentHandler {FS}.
Arguments mainPageHandler {FS}.
Arguments HandleFunc {FS}.
Arguments mainRouter {FS} readFile writeFile.
Arguments dispatch {CT FS} rt args st method p hs b.
Arguments ServeHTTP {CT FS} rt args st request.
Arguments routes {FS}.
Arguments mkRouter {FS}.

(** An in-memory byte storage for running the model on concrete
    requests: a map from paths to contents, whose reads fail with the
    text of Go's [*PathError] for a missing file. *)
Definition memRead (fs : gmap string string) (p : string) : ioResult :=
  match fs !! p with
  | Some d => IOk d
  | None => IErr ("open " ++ p ++ ": no such file or directory")
  end.

Definition memWrite (fs : gmap string string) (p d : string)
    : gmap string string * option string :=
  (<[p := d]> fs, None).

(** A storage whose every write fails and leaves it unchanged. *)
Definition roWrite (fs : gmap string string) (p d : string)
    : gmap string string * option string :=
  (fs, Some ("open " ++ p ++ ": read-only file system")).

(** The Latin-1 rows of [unicode.CaseRanges] (U+00C0..U+00D6 and
    U+00D8..U+00DE lowercase to the rune 32 above) and no mapping beyond
    them: a case table to run examples with.  Requests of ASCII bytes
    never consult the table. *)
#[global] Instance latin1Case : CaseTable :=
  fun r => (if inRange 192 222 r && negb (r =? 215) then r + 32 else r)%Z.

Definition memRouter : Router (gmap string string) :=
  mainRouter memRead memWrite.

Definition memServe {CT : CaseTable} (args : list string) (fs : gmap string string)
    (request : string) : option string * gmap string string :=
  ServeHTTP memRouter args fs request.

(** A header line that carries the (lowercased) name [k]. *)
Definition namesKey {CT : CaseTable} (k l : string) : Prop :=
  exists a b, splitN2 ":" " " l = [a; b] /\ toLower a = k.

(** Every gzip stream (RFC 1952) starts with the member header bytes
    ID1 = 0x1f and ID2 = 0x8b. *)
Definition hasGzipMagic (s : string) : bool :=
  String.prefix
    (String (Ascii.ascii_of_nat 31) (String (Ascii.ascii_of_nat 139) EmptyString))
    s.

(** The negotiation rule in the spec's words: strip the commas of the
    [accept-encoding] value, split it on white space and look for the
    token ["gzip"]. *)
Definition specRequestsGzip (v : string) : bool :=
  let stripped :=
    string_of_list_ascii
      (List.filter (fun c => negb (Ascii.eqb c ",")) (list_ascii_of_string v)) in
  existsb (fun w => String.eqb w "gzip") (fields stripped).

(** A string holding the two-byte sequence CR LF somewhere. *)
Definition hasCRLF (s : string) : Prop := exists p q, s = p ++ CRLF ++ q.

(** A check that a string holds no CR LF. *)
Fixpoint crlfFree (s : string) : bool :=
  match s with
  | String x (String y _ as tl) =>
      negb (Ascii.eqb x CR && Ascii.eqb y LF) && crlfFree tl
  | _ => true
  end.

(** The bytes of a request as a client lays them out: the request line,
    each header line ended by CRLF, a blank line, then the body. *)
Definition rawRequest (reqLine : string) (headerLines : list string)
    (b : string) : string :=
  reqLine ++ CRLF ++ String.concat "" (map (fun h => h ++ CRLF) headerLines)
  ++ CRLF ++ b.

(** [handleConnection]: one [conn.Read] into a 1024-byte buffer, then
    [ServeHTTP] on [string(buf[:n])].  [pending] is what the client has
    sent when the read happens: an empty stream makes [Read] fail with
    [io.EOF] and nothing is written; otherwise the read delivers the
    pending bytes up to the buffer's size. *)
Definition handleConnection {CT : CaseTable} {FS : Type} (rt : Router FS) (args : list string)
    (st : FS) (pending : string) : option string * FS :=
  match pending with
  | EmptyString => (None, st)
  | _ => ServeHTTP rt args st (String.substring 0 1024 pending)
  end.

(* ------------------------------------------------------------------ *)
(** ** Helper lemmas                                                     *)
(* ------------------------------------------------------------------ *)

Lemma splitBy_slash_lead (s : string) :
  splitBy isSlash (String "/" s) = EmptyString :: splitBy isSlash s.
Proof. reflexivity. Qed.

Section RouteTable.

Variable FS : Type.
Variable readFile : FS -> string -> ioResult.
Variable writeFile : FS -> string -> string -> FS * option string.

Lemma mainRouter_root :
  routes (mainRouter readFile writeFile) !! "GET/" = Some mainPageHandler.
Proof. reflexivity. Qed.

Lemma mainRouter_echo :
  routes (mainRouter readFile writeFile) !! "GET/echo" = Some echoHandler.
Proof. reflexivity. Qed.

Lemma mainRouter_unregistered (k : string) :
  ~ In k ["GET/"; "GET/echo"; "GET/user-agent"; "GET/files"; "POST/files"] ->
  routes (mainRouter readFile writeFile) !! k = None.
Proof.
  intros Hk. simpl in Hk.
  unfold mainRouter, HandleFunc, NewRouter; simpl.
  rewrite !lookup_insert_ne by (intros Heq; apply Hk; rewrite <- Heq; simpl; tauto).
  apply lookup_empty.
Qed.

End RouteTable.

(* ------------------------------------------------------------------ *)
(** ** Response encoding and routing                                     *)
(* ------------------------------------------------------------------ *)

(** C8: the encoder writes the status line ["HTTP/1.1 <code> <reason>\r\n"],
    then each header as ["Name: Value\r\n"] in list order, a blank line,
    the body and a trailing ["\r\n"]; and the request
    ["GET /echo/abc HTTP/1.1\r\nHost: x\r\n\r\n"] is answered, whatever
    the file system and command line, by [200 OK] with
    [Content-Type: text/plain], [Content-Length: 3] and body [abc]. *)
Theorem writeResponse_layout_and_echo_abc {CT : CaseTable} :
  (forall (code : Z) (rsn b : string) (hs : list httpHeader),
     writeResponse code rsn b hs =
     "HTTP/1.1 " ++ itoa code ++ " " ++ rsn ++ CRLF
     ++ String.concat "" (map (fun h => name h ++ ": " ++ value h ++ CRLF) hs)
     ++ CRLF ++ b ++ CRLF) /\
  (forall (FS : Type) (rd : FS -> string -> ioResult)
          (wr : FS -> string -> string -> FS * option string)
          (args : list string) (st : FS),
     ServeHTTP (mainRouter rd wr) args st
       ("GET /echo/abc HTTP/1.1" ++ CRLF ++ "Host: x" ++ CRLF ++ CRLF)
     = (Some ("HTTP/1.1 200 OK" ++ CRLF
              ++ "Content-Type: text/plain" ++ CRLF
              ++ "Content-Length: 3" ++ CRLF
              ++ CRLF ++ "abc" ++ CRLF), st)).
Proof.
  split.
  - intros code rsn b hs. reflexivity.
  - intros FS rd wr args st. reflexivity.
Qed.

(** C10: a decoded [GET] request whose path is ["/"] or begins with
    ["//"] has the empty string as its first segment, so its route key is
    ["GET/"], and it is answered by the root handler: status 200,
    [Content-Type: text/html] and body ["<h1>Hello World</h1>"] (followed
    by whatever header the encoding negotiation appends). *)
Theorem get_empty_segment_serves_root {CT : CaseTable} (FS : Type)
    (rd : FS -> string -> ioResult)
    (wr : FS -> string -> string -> FS * option string)
    (args : list string) (st : FS) (p : string)
    (hs : gmap string string) (b : string) :
  (p = "/" \/ exists s, p = "//" ++ s) ->
  (exists rest, splitBy isSlash p = "" :: "" :: rest) /\
  exists extra,
    dispatch (mainRouter rd wr) args st "GET" p hs b =
    (Some (writeResponse 200 "OK" "<h1>Hello World</h1>"
             (mkHeader "Content-Type" "text/html"
              :: mkHeader "Content-Length" "20" :: extra)), st).
Proof.
  intros Hp.
  assert (Hsplit : exists rest, splitBy isSlash p = "" :: "" :: rest).
  { destruct Hp as [-> | [s ->]].
    - exists []. reflexivity.
    - exists (splitBy isSlash s). reflexivity. }
  split; [exact Hsplit|].
  destruct Hsplit as [rest Hs].
  unfold dispatch. rewrite Hs.
  change ("GET" ++ "/" ++ "") with "GET/".
  cbn [mainPageHandler].
  unfold handleCompression; cbn [headers].
  destruct (hs !! "accept-encoding") as [enc|].
  - destruct (String.eqb (toLower enc) "gzip").
    + eexists. reflexivity.
    + exists []. reflexivity.
  - exists []. reflexivity.
Qed.

Lemma get_empty_segment_serves_root_witness :
  exists extra,
    dispatch memRouter [] ∅ "GET" "//anything/else" ∅ "" =
    (Some (writeResponse 200 "OK" "<h1>Hello World</h1>"
             (mkHeader "Content-Type" "text/html"
              :: mkHeader "Content-Length" "20" :: extra)), ∅).
Proof.
  apply (get_empty_segment_serves_root (gmap string string) memRead memWrite
           [] ∅ "//anything/else" ∅ "").
  right. exists "anything/else". reflexivity.
Defined.

(** C6: for every decoded request whose path has a first segment and
    whose key [method ++ "/" ++ segment] is none of the five registered
    keys, the server writes the fixed response
    ["HTTP/1.1 404 Not Found\r\n\r\n\r\n"]: no header, empty body, the
    same for every method, header and body.  (A path with no ['/'] at all
    has no first segment: then nothing is written.) *)
Theorem unknown_route_fixed_404 {CT : CaseTable} (FS : Type)
    (rd : FS -> string -> ioResult)
    (wr : FS -> string -> string -> FS * option string)
    (args : list string) (st : FS) (request m p : string)
    (hs : gmap string string) (b seg0 seg : string) (rest : list string) :
  decode request = Some (m, p, hs, b) ->
  splitBy isSlash p = seg0 :: seg :: rest ->
  ~ In (m ++ "/" ++ seg)
      ["GET/"; "GET/echo"; "GET/user-agent"; "GET/files"; "POST/files"] ->
  ServeHTTP (mainRouter rd wr) args st request =
  (Some ("HTTP/1.1 404 Not Found" ++ CRLF ++ CRLF ++ CRLF), st).
Proof.
  intros Hdec Hs Hk.
  unfold ServeHTTP. rewrite Hdec.
  unfold dispatch. rewrite Hs.
  pose proof (mainRouter_unregistered FS rd wr _ Hk) as Hn.
  assert (Hn' : @lookup string (list string -> Request -> FS -> Response * FS)
                  _ _ (m ++ "/" ++ seg) (routes (mainRouter rd wr)) = None)
    by exact Hn.
  rewrite Hn'. reflexivity.
Qed.

Lemma unknown_route_fixed_404_witness :
  decode ("GET /nonexistent HTTP/1.1" ++ CRLF ++ "Host: x" ++ CRLF ++ CRLF)
    = Some ("GET", "/nonexistent", parseHeaders ["Host: x"; ""; ""], "") /\
  memServe [] ∅ ("GET /nonexistent HTTP/1.1" ++ CRLF ++ "Host: x" ++ CRLF ++ CRLF)
    = (Some ("HTTP/1.1 404 Not Found" ++ CRLF ++ CRLF ++ CRLF), ∅).
Proof.
  split; [reflexivity|].
  apply (unknown_route_fixed_404 (gmap string string) memRead memWrite [] ∅
           _ "GET" "/nonexistent" (parseHeaders ["Host: x"; ""; ""]) ""
           "" "nonexistent" []).
  - reflexivity.
  - reflexivity.
  - simpl. intuition discriminate.
Defined.

(* ------------------------------------------------------------------ *)
(** ** Handlers and the Content-Length header                            *)
(* ------------------------------------------------------------------ *)

Lemma splitBy_slash_free (v : string) :
  ~ In "/"%char (list_ascii_of_string v) -> splitBy isSlash v = [v].
Proof.
  induction v as [|c v IH]; intros Hv; [reflexivity|].
  simpl in Hv. simpl.
  destruct (isSlash c) eqn:Ec.
  - exfalso. apply Hv. left. symmetry. apply Ascii.eqb_eq. exact Ec.
  - rewrite IH by tauto. reflexivity.
Qed.

(** C4: the echo handler answers 200, [text/plain], with the third
    segment as body when the path splits on ['/'] into exactly three
    segments (so ["/echo/" ++ v] with [v] free of ['/'], also the empty
    [v], gives body [v]), and 404 with body ["Not Found"] for any other
    number of segments. *)
Theorem echoHandler_segments (FS : Type) (args : list string)
    (r : Request) (st : FS) :
  (forall a b v, splitBy isSlash (path r) = [a; b; v] ->
     echoHandler args r st = (mkResponse 200 "OK" "text/plain" v, st)) /\
  (length (splitBy isSlash (path r)) <> 3%nat ->
     echoHandler args r st =
     (mkResponse 404 "Not Found" "text/plain" "Not Found", st)) /\
  (forall v, ~ In "/"%char (list_ascii_of_string v) ->
     echoHandler args (mkRequest ("/echo/" ++ v) (headers r) (body r)) st =
     (mkResponse 200 "OK" "text/plain" v, st)).
Proof.
  split; [|split].
  - intros a b v Hs. unfold echoHandler. rewrite Hs. reflexivity.
  - intros Hl. unfold echoHandler.
    destruct (splitBy isSlash (path r)) as [|x [|y [|z [|w t]]]];
      try reflexivity.
    simpl in Hl. congruence.
  - intros v Hv. unfold echoHandler. cbn [path].
    change ("/echo/" ++ v) with (String "/" ("echo" ++ String "/" v)).
    rewrite splitBy_slash_lead. simpl.
    rewrite (splitBy_slash_free v Hv). reflexivity.
Qed.

Lemma echoHandler_segments_witness :
  echoHandler [] (mkRequest "/echo/abc" ∅ "") tt =
  (mkResponse 200 "OK" "text/plain" "abc", tt) /\
  echoHandler [] (mkRequest "/echo/a/b" ∅ "") tt =
  (mkResponse 404 "Not Found" "text/plain" "Not Found", tt) /\
  echoHandler [] (mkRequest ("/echo/" ++ "") ∅ "") tt =
  (mkResponse 200 "OK" "text/plain" "", tt).
Proof.
  destruct (echoHandler_segments unit [] (mkRequest "/echo/a/b" ∅ "") tt)
    as [H1 [H2 H3]].
  split; [|split].
  - apply (proj1 (echoHandler_segments unit [] (mkRequest "/echo/abc" ∅ "") tt)
             "" "echo" "abc").
    reflexivity.
  - apply H2. simpl. discriminate.
  - apply (H3 ""). simpl. tauto.
Defined.

(** C5: the user-agent handler answers 400 exactly when the parsed
    headers have no ["user-agent"] key, then with the plain-text body
    ["User-Agent header not found"]; when the key is present it answers
    200, [text/plain], with the stored (parser-lowercased) value. *)
Theorem userAgentHandler_status (FS : Type) (args : list string)
    (r : Request) (st : FS) :
  (statusCode (fst (userAgentHandler args r st)) = 400%Z <->
   headers r !! "user-agent" = None) /\
  (forall v, headers r !! "user-agent" = Some v ->
     userAgentHandler args r st = (mkResponse 200 "OK" "text/plain" v, st)) /\
  (headers r !! "user-agent" = None ->
     userAgentHandler args r st =
     (mkResponse 400 "Not Found" "text/plain" "User-Agent header not found",
      st)).
Proof.
  unfold userAgentHandler.
  destruct (headers r !! "user-agent") as [v|] eqn:E.
  - split; [|split].
    + simpl. split; discriminate.
    + intros v' Hv. injection Hv as <-. reflexivity.
    + discriminate.
  - split; [|split].
    + simpl. tauto.
    + discriminate.
    + reflexivity.
Qed.

Lemma userAgentHandler_status_witness :
  userAgentHandler []
    (mkRequest "/user-agent" (parseHeaders ["User-Agent: test-client"]) "") tt
  = (mkResponse 200 "OK" "text/plain" "test-client", tt) /\
  userAgentHandler [] (mkRequest "/user-agent" ∅ "") tt
  = (mkResponse 400 "Not Found" "text/plain" "User-Agent header not found", tt).
Proof.
  split.
  - apply (proj1 (proj2 (userAgentHandler_status unit []
             (mkRequest "/user-agent" (parseHeaders ["User-Agent: test-client"]) "")
             tt))).
    reflexivity.
  - apply (proj2 (proj2 (userAgentHandler_status unit []
             (mkRequest "/user-agent" ∅ "") tt))).
    reflexivity.
Defined.

(** C3: every response written by the dispatcher is either the fixed 404
    with no header at all, or a status line, headers, a blank line, the
    body [bd] and a trailing CRLF, where exactly one header is named
    [Content-Length] and its value is the decimal byte length of [bd];
    this holds for any route table, handlers and negotiation outcome. *)
Theorem content_length_is_body_length {CT : CaseTable} (FS : Type) (rt : Router FS)
    (args : list string) (st : FS) (m p : string)
    (hs : gmap string string) (b out : string) (st' : FS) :
  dispatch rt args st m p hs b = (Some out, st') ->
  out = writeResponse 404 "Not Found" "" [] \/
  exists (code : Z) (rsn bd : string) (hdrs : list httpHeader),
    out = "HTTP/1.1 " ++ itoa code ++ " " ++ rsn ++ CRLF
          ++ String.concat "" (map headerString hdrs)
          ++ CRLF ++ bd ++ CRLF /\
    filter (fun h => String.eqb (name h) "Content-Length") hdrs =
    [mkHeader "Content-Length" (itoa (Z.of_nat (String.length bd)))].
Proof.
  unfold dispatch.
  destruct (splitBy isSlash p) as [|x [|seg rest]]; try discriminate.
  destruct (routes rt !! (m ++ "/" ++ seg)) as [handler|].
  2:{ intros H. injection H as <- _. left. reflexivity. }
  destruct (handler args (mkRequest p hs b) st) as [res st1].
  unfold handleCompression; cbn [headers].
  destruct (hs !! "accept-encoding") as [enc|];
    [destruct (String.eqb (toLower enc) "gzip")|];
    intros H; injection H as <- _; right;
    exists (statusCode res), (reason res), (resBody res);
    eexists; split; reflexivity.
Qed.

Lemma content_length_is_body_length_witness :
  dispatch memRouter [] ∅ "GET" "/echo/abc" ∅ "" =
  (Some (writeResponse 200 "OK" "abc"
           [mkHeader "Content-Type" "text/plain";
            mkHeader "Content-Length" "3"]), ∅) /\
  exists (code : Z) (rsn bd : string) (hdrs : list httpHeader),
    writeResponse 200 "OK" "abc"
      [mkHeader "Content-Type" "text/plain"; mkHeader "Content-Length" "3"] =
    "HTTP/1.1 " ++ itoa code ++ " " ++ rsn ++ CRLF
    ++ String.concat "" (map headerString hdrs) ++ CRLF ++ bd ++ CRLF /\
    filter (fun h => String.eqb (name h) "Content-Length") hdrs =
    [mkHeader "Content-Length" (itoa (Z.of_nat (String.length bd)))].
Proof.
  assert (E : dispatch memRouter [] ∅ "GET" "/echo/abc" ∅ "" =
    (Some (writeResponse 200 "OK" "abc"
             [mkHeader "Content-Type" "text/plain";
              mkHeader "Content-Length" "3"]), ∅)) by reflexivity.
  split; [exact E|].
  destruct (content_length_is_body_length (gmap string string) memRouter
              [] ∅ "GET" "/echo/abc" ∅ "" _ ∅ E) as [H|H].
  - exfalso. vm_compute in H. discriminate.
  - exact H.
Defined.

(* ------------------------------------------------------------------ *)
(** ** The header parser                                                  *)
(* ------------------------------------------------------------------ *)

Lemma splitN2_cons2 (a b x y : ascii) (rest : string) :
  splitN2 a b (String x (String y rest)) =
  if Ascii.eqb x a && Ascii.eqb y b then [EmptyString; rest]
  else consHead x (splitN2 a b (String y rest)).
Proof. reflexivity. Qed.

Lemma colon_space_eq (x y : ascii) :
  Ascii.eqb x ":" && Ascii.eqb y " " = true -> x = ":"%char /\ y = " "%char.
Proof.
  intros E. apply andb_prop in E as [E1 E2].
  apply Ascii.eqb_eq in E1, E2. auto.
Qed.

Lemma splitN2_sound (s k v : string) :
  splitN2 ":" " " s = [k; v] -> s = k ++ ": " ++ v.
Proof.
  revert k v. induction s as [|x tl IH]; intros k v H; [discriminate|].
  destruct tl as [|y rest]; [discriminate|].
  rewrite splitN2_cons2 in H.
  destruct (Ascii.eqb x ":" && Ascii.eqb y " ") eqn:E.
  - injection H as <- <-. apply colon_space_eq in E as [-> ->]. reflexivity.
  - destruct (splitN2 ":" " " (String y rest)) as [|h [|h2 [|h3 t]]] eqn:E2;
      simpl in H; try discriminate.
    injection H as <- <-. rewrite (IH h h2 eq_refl). reflexivity.
Qed.

Lemma splitN2_first (s k v p q : string) :
  splitN2 ":" " " s = [k; v] -> s = p ++ ": " ++ q ->
  String.length k <= String.length p.
Proof.
  revert k v p. induction s as [|x tl IH]; intros k v p H Hs; [discriminate|].
  destruct tl as [|y rest]; [discriminate|].
  rewrite splitN2_cons2 in H.
  destruct (Ascii.eqb x ":" && Ascii.eqb y " ") eqn:E.
  - injection H as <- <-. simpl. lia.
  - destruct (splitN2 ":" " " (String y rest)) as [|h [|h2 [|h3 t]]] eqn:E2;
      simpl in H; try discriminate.
    injection H as <- <-.
    destruct p as [|c p'].
    + simpl in Hs. injection Hs as -> -> _. discriminate.
    + simpl in Hs. injection Hs as -> Htl.
      simpl. specialize (IH h h2 p' eq_refl Htl). lia.
Qed.

Lemma splitN2_complete (s k v : string) :
  s = k ++ ": " ++ v ->
  (forall p q, s = p ++ ": " ++ q -> String.length k <= String.length p) ->
  splitN2 ":" " " s = [k; v].
Proof.
  revert s. induction k as [|c k' IH]; intros s Hs Hfirst.
  - subst s. reflexivity.
  - subst s.
    assert (Htl : exists y rest, k' ++ ": " ++ v = String y rest)
      by (destruct k'; simpl; eauto).
    destruct Htl as (y & rest & Etl).
    change (String c k' ++ ": " ++ v) with (String c (k' ++ ": " ++ v)) in *.
    rewrite Etl, splitN2_cons2.
    destruct (Ascii.eqb c ":" && Ascii.eqb y " ") eqn:E.
    + exfalso. apply colon_space_eq in E as [-> ->].
      specialize (Hfirst "" rest). rewrite Etl in Hfirst.
      specialize (Hfirst eq_refl). simpl in Hfirst. lia.
    + rewrite <- Etl. rewrite (IH (k' ++ ": " ++ v) eq_refl); [reflexivity|].
      intros p q Hpq. specialize (Hfirst (String c p) q).
      simpl in Hfirst. rewrite Hpq in Hfirst.
      specialize (Hfirst eq_refl). lia.
Qed.

Lemma splitN2_none (s : string) :
  (forall p q, s <> p ++ ": " ++ q) -> splitN2 ":" " " s = [s].
Proof.
  induction s as [|x tl IH]; intros Hno; [reflexivity|].
  destruct tl as [|y rest]; [reflexivity|].
  rewrite splitN2_cons2.
  destruct (Ascii.eqb x ":" && Ascii.eqb y " ") eqn:E.
  - exfalso. apply colon_space_eq in E as [-> ->]. apply (Hno "" rest).
    reflexivity.
  - rewrite IH; [reflexivity|].
    intros p q Hpq. apply (Hno (String x p) q). rewrite Hpq.
    reflexivity.
Qed.

Lemma parseHeaders_snoc {CT : CaseTable} (ls : list string) (l : string) :
  parseHeaders (app ls [l]) =
  if String.eqb l EmptyString then parseHeaders ls
  else match splitN2 ":" " " l with
       | [k; v] => <[toLower k := toLower v]> (parseHeaders ls)
       | _ => parseHeaders ls
       end.
Proof. unfold parseHeaders. rewrite fold_left_app. reflexivity. Qed.

Lemma snoc_decomp {A : Type} (ls pre post : list A) (x line : A) :
  app ls [x] = app pre (line :: post) ->
  (post = [] /\ pre = ls /\ line = x) \/
  (exists post', post = app post' [x] /\ ls = app pre (line :: post')).
Proof.
  intros H. destruct post as [|z post] using rev_ind.
  - left. apply app_inj_tail in H as [-> ->]. auto.
  - right. clear IHpost. exists post.
    rewrite app_comm_cons, app_assoc in H.
    apply app_inj_tail in H as [-> ->]. split; reflexivity.
Qed.

Lemma parseHeaders_lookup_None {CT : CaseTable} (lines : list string) (k : string) :
  parseHeaders lines !! k = None <-> forall l, In l lines -> ~ namesKey k l.
Proof.
  induction lines as [|x ls IH] using rev_ind.
  - split; [intros _ l []|intros _; apply lookup_empty].
  - rewrite parseHeaders_snoc.
    assert (Hx : forall P : Prop,
               (parseHeaders ls !! k = None <-> P) ->
               ~ namesKey k x ->
               (parseHeaders ls !! k = None <->
                forall l, In l (app ls [x]) -> ~ namesKey k l)).
    { intros P _ Hnx. rewrite IH. split.
      - intros H l Hin. apply in_app_or in Hin as [Hin|[<-|[]]]; auto.
      - intros H l Hin. apply H. apply in_or_app. auto. }
    destruct (String.eqb x EmptyString) eqn:Eb.
    { apply String.eqb_eq in Eb as ->. apply (Hx _ IH).
      intros (a & b & Hs & _). discriminate. }
    destruct (splitN2 ":" " " x) as [|a0 [|b0 [|c0 t]]] eqn:Es;
      try (apply (Hx _ IH); intros (a & b & Hs & _); congruence).
    rewrite lookup_insert. case_decide as Hk.
    + split; [discriminate|]. intros H. exfalso.
      apply (H x); [apply in_or_app; right; left; reflexivity|].
      exists a0, b0. auto.
    + apply (Hx _ IH). intros (a & b & Hs & Ha). congruence.
Qed.

Lemma parseHeaders_lookup_Some {CT : CaseTable} (lines : list string) (k v : string) :
  parseHeaders lines !! k = Some v <->
  exists pre line post a b,
    lines = app pre (line :: post) /\ line <> EmptyString /\
    splitN2 ":" " " line = [a; b] /\ toLower a = k /\ toLower b = v /\
    (forall l, In l post -> ~ namesKey k l).
Proof.
  induction lines as [|x ls IH] using rev_ind.
  - change (parseHeaders []) with (∅ : gmap string string).
    rewrite lookup_empty. split; [discriminate|].
    intros (pre & line & post & _ & _ & H & _).
    destruct (app_cons_not_nil pre post line H).
  - rewrite parseHeaders_snoc.
    (* the last line [x] does not name [k]: the lookup is unchanged *)
    assert (Hx : ~ namesKey k x ->
               (parseHeaders ls !! k = Some v <->
                exists pre line post a b,
                  app ls [x] = app pre (line :: post) /\ line <> EmptyString /\
                  splitN2 ":" " " line = [a; b] /\ toLower a = k /\
                  toLower b = v /\ (forall l, In l post -> ~ namesKey k l))).
    { intros Hnx. rewrite IH. split.
      - intros (pre & line & post & a & b & Hl & Hne & Hs & Ha & Hb & Hpost).
        exists pre, line, (app post [x]), a, b.
        repeat split; auto.
        + rewrite Hl, <- app_assoc. reflexivity.
        + intros l Hin. apply in_app_or in Hin as [Hin|[<-|[]]]; auto.
      - intros (pre & line & post & a & b & Hl & Hne & Hs & Ha & Hb & Hpost).
        apply snoc_decomp in Hl as [(-> & -> & ->)|(post' & -> & Hl)].
        + exfalso. apply Hnx. exists a, b. auto.
        + exists pre, line, post', a, b. repeat split; auto.
          intros l Hin. apply Hpost. apply in_or_app. auto. }
    destruct (String.eqb x EmptyString) eqn:Eb.
    { apply String.eqb_eq in Eb as ->. apply Hx.
      intros (a & b & Hs & _). discriminate. }
    apply String.eqb_neq in Eb.
    destruct (splitN2 ":" " " x) as [|a0 [|b0 [|c0 t]]] eqn:Es;
      try (apply Hx; intros (a & b & Hs & _); congruence).
    rewrite lookup_insert. case_decide as Hk.
    + split.
      * intros H. injection H as <-.
        exists ls, x, [], a0, b0. repeat split; auto; intros l [].
      * intros (pre & line & post & a & b & Hl & Hne & Hs & Ha & Hb & Hpost).
        apply snoc_decomp in Hl as [(-> & -> & ->)|(post' & -> & Hl)].
        -- rewrite Es in Hs. injection Hs as -> ->. congruence.
        -- exfalso. apply (Hpost x); [apply in_or_app; right; left; auto|].
           exists a0, b0. auto.
    + apply Hx. intros (a & b & Hs & Ha). congruence.
Qed.

(** C7: each line is split at the first occurrence of [": "] (and a line
    without it stays whole, so it names no key and is dropped), blank
    lines are skipped, both halves are lowercased, and the map holds for
    a name [k] the lowercased value of the last line naming [k] (later
    lines overwrite earlier ones), or nothing when no line names [k]. *)
Theorem parseHeaders_last_wins {CT : CaseTable} :
  (forall line k v : string,
     splitN2 ":" " " line = [k; v] <->
     line = k ++ ": " ++ v /\
     (forall p q, line = p ++ ": " ++ q -> String.length k <= String.length p)) /\
  (forall line : string,
     (forall p q, line <> p ++ ": " ++ q) -> splitN2 ":" " " line = [line]) /\
  (forall ls : list string, parseHeaders (app ls [EmptyString]) = parseHeaders ls) /\
  (forall (lines : list string) (k v : string),
     parseHeaders lines !! k = Some v <->
     exists pre line post a b,
       lines = app pre (line :: post) /\ line <> EmptyString /\
       splitN2 ":" " " line = [a; b] /\ toLower a = k /\ toLower b = v /\
       (forall l, In l post -> ~ namesKey k l)) /\
  (forall (lines : list string) (k : string),
     parseHeaders lines !! k = None <-> forall l, In l lines -> ~ namesKey k l).
Proof.
  split; [|split; [|split; [|split]]].
  - intros line k v. split.
    + intros H. split; [apply splitN2_sound; exact H|].
      intros p q. apply splitN2_first with v. exact H.
    + intros [H1 H2]. apply splitN2_complete; assumption.
  - exact splitN2_none.
  - intros ls. rewrite parseHeaders_snoc. reflexivity.
  - exact parseHeaders_lookup_Some.
  - exact parseHeaders_lookup_None.
Qed.

Lemma parseHeaders_last_wins_witness :
  parseHeaders ["Host: X"; "bad"; ""; "HOST: Y: Z"] !! "host" = Some "y: z" /\
  splitN2 ":" " " "HOST: Y: Z" = ["HOST"; "Y: Z"].
Proof.
  destruct parseHeaders_last_wins as (Hsplit & _ & _ & Hsome & _).
  split.
  - apply Hsome.
    exists ["Host: X"; "bad"; ""], "HOST: Y: Z", [], "HOST", "Y: Z".
    split; [reflexivity|]. split; [discriminate|].
    split; [reflexivity|]. split; [reflexivity|]. split; [reflexivity|].
    intros l [].
  - apply Hsplit. split; [reflexivity|].
    intros p q Hpq.
    destruct p as [|c1 [|c2 [|c3 [|c4 [|c5 p]]]]]; simpl in Hpq;
      try discriminate; simpl; lia.
Defined.

(* ------------------------------------------------------------------ *)
(** ** The file-POST handler                                              *)
(* ------------------------------------------------------------------ *)

(** C9 (as amended): for a path of three segments the handler writes the
    request body to [dirPath ++ fileName], the root string with the file
    name appended directly (the root is [os.Args[2]], or [""] with fewer
    than three arguments), and answers [201 Created] whatever the write
    returns: with any storage, also one whose writes fail, the response
    is the same and only the storage state differs. *)
Theorem filesPost_always_created (FS : Type)
    (wr : FS -> string -> string -> FS * option string)
    (args : list string) (r : Request) (st : FS) (s0 s1 fileName : string) :
  splitBy isSlash (path r) = [s0; s1; fileName] ->
  filesPostHandler wr args r st =
  (mkResponse 201 "Created" "text/plain" "saved",
   fst (wr st (dirPathOf args ++ fileName) (body r))).
Proof.
  intros Hs. unfold filesPostHandler. rewrite Hs.
  destruct (wr st (dirPathOf args ++ fileName) (body r)). reflexivity.
Qed.

Lemma filesPost_always_created_witness :
  roWrite ∅ "/tmp/a.txt" "hello" = (∅, Some "open /tmp/a.txt: read-only file system") /\
  filesPostHandler roWrite ["server"; "--directory"; "/tmp/"]
    (mkRequest "/files/a.txt" ∅ "hello") ∅ =
  (mkResponse 201 "Created" "text/plain" "saved", ∅).
Proof.
  split; [reflexivity|].
  apply (filesPost_always_created (gmap string string) roWrite
           ["server"; "--directory"; "/tmp/"] (mkRequest "/files/a.txt" ∅ "hello")
           ∅ "" "files" "a.txt").
  reflexivity.
Defined.

(** C9 as stated is refuted: with the root directory ["/tmp"] (no
    trailing ['/']) a POST to ["/files/a.txt"] does not create
    ["/tmp/a.txt"], the root joined with the file name; it creates
    ["/tmpa.txt"]. *)
Lemma filesPost_root_not_joined :
  let st' := snd (filesPostHandler memWrite ["server"; "--directory"; "/tmp"]
                    (mkRequest "/files/a.txt" ∅ "hello") ∅) in
  st' !! "/tmp/a.txt" = None /\ st' !! "/tmpa.txt" = Some "hello".
Proof. split; reflexivity. Qed.

(* ------------------------------------------------------------------ *)
(** ** Content-encoding negotiation                                        *)
(* ------------------------------------------------------------------ *)

(** C1: with [Accept-Encoding: gzip] the server announces
    [Content-Encoding: gzip] but writes the handler's body unchanged,
    with the uncompressed length: ["abc"] is not a gzip stream. *)
Theorem gzip_announced_body_uncompressed {CT : CaseTable} :
  memServe [] ∅
    ("GET /echo/abc HTTP/1.1" ++ CRLF ++ "Accept-Encoding: gzip" ++ CRLF ++ CRLF)
  = (Some ("HTTP/1.1 200 OK" ++ CRLF
           ++ "Content-Type: text/plain" ++ CRLF
           ++ "Content-Length: 3" ++ CRLF
           ++ "Content-Encoding: gzip" ++ CRLF
           ++ CRLF ++ "abc" ++ CRLF), ∅) /\
  hasGzipMagic "abc" = false.
Proof. split; reflexivity. Qed.

(** C2 (as amended): the [Content-Encoding: gzip] header is appended
    exactly when the parsed [accept-encoding] value, lowercased, is the
    whole string ["gzip"]; otherwise (header absent or any other value)
    the headers are left as they are. *)
Theorem handleCompression_exact_gzip {CT : CaseTable} (r : Request) (h : list httpHeader) :
  (forall v, headers r !! "accept-encoding" = Some v -> toLower v = "gzip" ->
     snd (handleCompression r h) = app h [mkHeader "Content-Encoding" "gzip"]) /\
  ((forall v, headers r !! "accept-encoding" = Some v -> toLower v <> "gzip") ->
     snd (handleCompression r h) = h).
Proof.
  unfold handleCompression.
  destruct (headers r !! "accept-encoding") as [enc|].
  - split.
    + intros v Hv Hg. injection Hv as <-.
      apply String.eqb_eq in Hg. rewrite Hg. reflexivity.
    + intros H. specialize (H enc eq_refl).
      apply String.eqb_neq in H. rewrite H. reflexivity.
  - split; [discriminate|reflexivity].
Qed.

Lemma handleCompression_exact_gzip_witness :
  snd (handleCompression (mkRequest "/" {["accept-encoding" := "gzip"]} "") []) =
  [mkHeader "Content-Encoding" "gzip"] /\
  snd (handleCompression (mkRequest "/" {["accept-encoding" := "gzip, br"]} "") []) =
  [].
Proof.
  split.
  - apply (proj1 (handleCompression_exact_gzip
                    (mkRequest "/" {["accept-encoding" := "gzip"]} "") []) "gzip");
      reflexivity.
  - apply (proj2 (handleCompression_exact_gzip
                    (mkRequest "/" {["accept-encoding" := "gzip, br"]} "") [])).
    intros v Hv. injection Hv as <-. discriminate.
Defined.

(** C2 as stated is refuted: ["gzip, br"] has the token ["gzip"] once
    its commas are stripped, yet no [Content-Encoding] header is added. *)
Lemma gzip_token_in_list_ignored :
  specRequestsGzip "gzip, br" = true /\
  ~ In (mkHeader "Content-Encoding" "gzip")
      (snd (handleCompression (mkRequest "/echo/abc" {["accept-encoding" := "gzip, br"]} "")
              [mkHeader "Content-Type" "text/plain"; mkHeader "Content-Length" "3"])) /\
  memServe [] ∅
    ("GET /echo/abc HTTP/1.1" ++ CRLF ++ "Accept-Encoding: gzip, br" ++ CRLF ++ CRLF)
  = (Some ("HTTP/1.1 200 OK" ++ CRLF
           ++ "Content-Type: text/plain" ++ CRLF
           ++ "Content-Length: 3" ++ CRLF
           ++ CRLF ++ "abc" ++ CRLF), ∅).
Proof.
  split; [reflexivity|]. split; [|reflexivity].
  simpl. intros [H|[H|[]]]; discriminate.
Qed.

(* ================================================================== *)
(** * Further properties of the server                                  *)
(* ================================================================== *)

(* ------------------------------------------------------------------ *)
(** ** The file-GET handler and the file round trip                     *)
(* ------------------------------------------------------------------ *)

(** The file-GET handler: with a path of three segments it reads
    [dirPath ++ fileName] and answers 200 [application/octet-stream] with
    the data, or 404 [text/plain] with the read error's text; with any
    other number of segments it answers 404 ["Not Found"].  It never
    changes the storage. *)
Theorem filesGet_outcomes (FS : Type) (rd : FS -> string -> ioResult)
    (args : list string) (r : Request) (st : FS) :
  (forall s0 s1 fileName d,
     splitBy isSlash (path r) = [s0; s1; fileName] ->
     rd st (dirPathOf args ++ fileName) = IOk d ->
     filesGetHandler rd args r st =
     (mkResponse 200 "OK" "application/octet-stream" d, st)) /\
  (forall s0 s1 fileName e,
     splitBy isSlash (path r) = [s0; s1; fileName] ->
     rd st (dirPathOf args ++ fileName) = IErr e ->
     filesGetHandler rd args r st = (mkResponse 404 "Not Found" "text/plain" e, st)) /\
  (length (splitBy isSlash (path r)) <> 3%nat ->
     filesGetHandler rd args r st =
     (mkResponse 404 "Not Found" "text/plain" "Not Found", st)).
Proof.
  unfold filesGetHandler. split; [|split].
  - intros s0 s1 fileName d Hs Hr. rewrite Hs, Hr. reflexivity.
  - intros s0 s1 fileName e Hs Hr. rewrite Hs, Hr. reflexivity.
  - intros Hl.
    destruct (splitBy isSlash (path r)) as [|x [|y [|z [|w t]]]];
      try reflexivity.
    simpl in Hl. congruence.
Qed.

Lemma filesGet_outcomes_witness :
  filesGetHandler memRead ["server"; "--directory"; "/tmp/"]
    (mkRequest "/files/a.txt" ∅ "") {["/tmp/a.txt" := "hi"]} =
  (mkResponse 200 "OK" "application/octet-stream" "hi", {["/tmp/a.txt" := "hi"]}) /\
  filesGetHandler memRead ["server"; "--directory"; "/tmp/"]
    (mkRequest "/files/b.txt" ∅ "") ∅ =
  (mkResponse 404 "Not Found" "text/plain"
     "open /tmp/b.txt: no such file or directory", ∅).
Proof.
  split.
  - apply (proj1 (filesGet_outcomes (gmap string string) memRead
             ["server"; "--directory"; "/tmp/"] (mkRequest "/files/a.txt" ∅ "")
             {["/tmp/a.txt" := "hi"]}) "" "files" "a.txt" "hi");
      reflexivity.
  - apply (proj1 (proj2 (filesGet_outcomes (gmap string string) memRead
             ["server"; "--directory"; "/tmp/"] (mkRequest "/files/b.txt" ∅ "") ∅))
             "" "files" "b.txt"); reflexivity.
Defined.

(** Round trip through the two file handlers: on a storage that reads
    back what a successful write stored, a POST of body [B] followed by a
    GET of any three-segment path with the same file name answers 200
    with body [B]. *)
Theorem files_post_then_get (FS : Type) (rd : FS -> string -> ioResult)
    (wr : FS -> string -> string -> FS * option string)
    (args : list string) (r1 r2 : Request) (st st' : FS)
    (s0 s1 s2 s3 fileName : string) :
  (forall st0 p d st1, wr st0 p d = (st1, None) -> rd st1 p = IOk d) ->
  splitBy isSlash (path r1) = [s0; s1; fileName] ->
  splitBy isSlash (path r2) = [s2; s3; fileName] ->
  wr st (dirPathOf args ++ fileName) (body r1) = (st', None) ->
  filesGetHandler rd args r2 (snd (filesPostHandler wr args r1 st)) =
  (mkResponse 200 "OK" "application/octet-stream" (body r1), st').
Proof.
  intros Hlaw H1 H2 Hw.
  unfold filesPostHandler. rewrite H1, Hw. cbn [snd].
  unfold filesGetHandler. rewrite H2.
  rewrite (Hlaw _ _ _ _ Hw). reflexivity.
Qed.

Lemma files_post_then_get_witness :
  filesGetHandler memRead ["server"; "--directory"; "/tmp/"]
    (mkRequest "/files/n" ∅ "")
    (snd (filesPostHandler memWrite ["server"; "--directory"; "/tmp/"]
            (mkRequest "/files/n" ∅ "payload") ∅)) =
  (mkResponse 200 "OK" "application/octet-stream" "payload",
   {["/tmp/n" := "payload"]}).
Proof.
  apply (files_post_then_get (gmap string string) memRead memWrite
           ["server"; "--directory"; "/tmp/"] (mkRequest "/files/n" ∅ "payload")
           (mkRequest "/files/n" ∅ "") ∅ {["/tmp/n" := "payload"]}
           "" "files" "" "files" "n").
  - intros st0 p d st1 H. injection H as <-.
    unfold memRead. rewrite lookup_insert_eq. reflexivity.
  - reflexivity.
  - reflexivity.
  - reflexivity.
Defined.

(* ------------------------------------------------------------------ *)
(** ** Decimal numbers and lowercase headers                             *)
(* ------------------------------------------------------------------ *)

(** [fmt.Sprintf("%d", z)] as used for the status code and the
    [Content-Length] value is read back to [z] by the Standard Library's
    decimal reader: no integer is rendered ambiguously. *)
Theorem itoa_reads_back (z : Z) :
  option_map Z.of_int (NilZero.int_of_string (itoa z)) = Some z.
Proof.
  unfold itoa. rewrite NilZero.isi.
  - simpl. rewrite DecimalZ.of_to. reflexivity.
  - destruct z as [|p|p]; simpl; try discriminate.
    intros H. injection H as H. exact (DecimalPos.Unsigned.to_uint_nonnil p H).
  - destruct z as [|p|p]; simpl; try discriminate.
    intros H. injection H as H. exact (DecimalPos.Unsigned.to_uint_nonnil p H).
Qed.

(* ------------------------------------------------------------------ *)
(** ** Decoding a request                                                *)
(* ------------------------------------------------------------------ *)

Lemma sapp_cons (x : ascii) (a b : string) : String x a ++ b = String x (a ++ b).
Proof. reflexivity. Qed.

Lemma sapp_nil_r (a : string) : a ++ "" = a.
Proof. induction a as [|x a IH]; [reflexivity|]. rewrite sapp_cons, IH. reflexivity. Qed.

Lemma sapp_assoc (a b c : string) : (a ++ b) ++ c = a ++ (b ++ c).
Proof. induction a as [|x a IH]; [reflexivity|]. rewrite !sapp_cons, IH. reflexivity. Qed.

Lemma concat_empty_cons (x : string) (xs : list string) :
  String.concat "" (x :: xs) = x ++ String.concat "" xs.
Proof. destruct xs; [rewrite sapp_nil_r|]; reflexivity. Qed.

Lemma split2_cons2 (a b x y : ascii) (rest : string) :
  split2 a b (String x (String y rest)) =
  if Ascii.eqb x a && Ascii.eqb y b then EmptyString :: split2 a b rest
  else consHead x (split2 a b (String y rest)).
Proof. reflexivity. Qed.

Lemma CR_LF_eq (x y : ascii) :
  Ascii.eqb x CR && Ascii.eqb y LF = true -> x = CR /\ y = LF.
Proof.
  intros E. apply andb_prop in E as [E1 E2].
  apply Ascii.eqb_eq in E1, E2. auto.
Qed.

Lemma hasCRLF_cons (x : ascii) (a : string) : ~ hasCRLF (String x a) -> ~ hasCRLF a.
Proof. intros H (p & q & ->). apply H. exists (String x p), q. reflexivity. Qed.

Lemma hasCRLF_empty : ~ hasCRLF "".
Proof. intros (p & q & H). destruct p; discriminate. Qed.

Lemma crlfFree_sound (s : string) : crlfFree s = true -> ~ hasCRLF s.
Proof.
  intros Hf (p & q & ->). revert Hf. induction p as [|x p IH]; [discriminate|].
  rewrite sapp_cons.
  assert (Etl : exists y rest, p ++ CRLF ++ q = String y rest)
    by (destruct p; eexists; eexists; reflexivity).
  destruct Etl as (y & rest & Etl).
  change (crlfFree (String x (p ++ CRLF ++ q)))
    with (match p ++ CRLF ++ q with
          | String y _ => negb (Ascii.eqb x CR && Ascii.eqb y LF) && crlfFree (p ++ CRLF ++ q)
          | _ => true end).
  rewrite Etl at 1. intros H. apply andb_prop in H as [_ H]. exact (IH H).
Qed.

Lemma split2_crlf_app (a b : string) :
  ~ hasCRLF a -> split2 CR LF (a ++ CRLF ++ b) = a :: split2 CR LF b.
Proof.
  induction a as [|x a IH]; intros Hno; [reflexivity|].
  assert (Etl : exists y rest, a ++ CRLF ++ b = String y rest)
    by (destruct a; eexists; eexists; reflexivity).
  destruct Etl as (y & rest & Etl).
  rewrite sapp_cons, Etl, split2_cons2.
  destruct (Ascii.eqb x CR && Ascii.eqb y LF) eqn:E.
  - exfalso. apply CR_LF_eq in E as [-> ->].
    destruct a as [|a0 a'].
    + injection Etl as Hc _. discriminate Hc.
    + rewrite sapp_cons in Etl. injection Etl as -> _.
      apply Hno. exists "", a'. reflexivity.
  - rewrite <- Etl, (IH (hasCRLF_cons _ _ Hno)). reflexivity.
Qed.

Lemma split2_crlf_none (a : string) : ~ hasCRLF a -> split2 CR LF a = [a].
Proof.
  induction a as [|x a IH]; intros Hno; [reflexivity|].
  destruct a as [|y rest]; [reflexivity|].
  rewrite split2_cons2.
  destruct (Ascii.eqb x CR && Ascii.eqb y LF) eqn:E.
  - exfalso. apply CR_LF_eq in E as [-> ->]. apply Hno. exists "", rest.
    reflexivity.
  - rewrite (IH (hasCRLF_cons _ _ Hno)). reflexivity.
Qed.

Lemma split2_rawRequest (rl : string) (hls : list string) (b : string) :
  ~ hasCRLF rl -> (forall h, In h hls -> ~ hasCRLF h) -> ~ hasCRLF b ->
  split2 CR LF (rawRequest rl hls b) = rl :: app hls [""; b].
Proof.
  intros Hrl Hhls Hb. unfold rawRequest.
  rewrite (split2_crlf_app _ _ Hrl). f_equal.
  induction hls as [|h t IH].
  - transitivity (split2 CR LF ("" ++ CRLF ++ b)); [reflexivity|].
    rewrite (split2_crlf_app "" b hasCRLF_empty), (split2_crlf_none _ Hb).
    reflexivity.
  - cbn [map]. rewrite concat_empty_cons, !sapp_assoc.
    rewrite (split2_crlf_app _ _ (Hhls h (or_introl eq_refl))).
    cbn [app]. f_equal. apply IH. intros h' Hin. apply Hhls. right. exact Hin.
Qed.

Lemma decode_rawRequest_eq {CT : CaseTable} (rl : string) (hls : list string) (b m p : string)
    (rest : list string) :
  ~ hasCRLF rl -> (forall h, In h hls -> ~ hasCRLF h) -> ~ hasCRLF b ->
  fields rl = m :: p :: rest ->
  decode (rawRequest rl hls b) = Some (m, p, parseHeaders (app hls [""; b]), b).
Proof.
  intros Hrl Hhls Hb Hf. unfold decode.
  rewrite (split2_rawRequest _ _ _ Hrl Hhls Hb). cbn [hd tl]. rewrite Hf.
  replace (rl :: app hls [""; b]) with (app (rl :: app hls [""]) [b])
    by (simpl; rewrite <- app_assoc; reflexivity).
  rewrite last_last. reflexivity.
Qed.

(** Decoding inverts the request layout: for a request line whose first
    two whitespace-separated fields are [m] and [p], header lines and a
    body none of which holds CR LF, [decode] yields [m], [p], the body,
    and the header map parsed from the header lines, the blank line and
    the body line: the body line goes through the header parser too. *)
Theorem decode_rawRequest {CT : CaseTable} (rl : string) (hls : list string) (b m p : string)
    (rest : list string) :
  ~ hasCRLF rl -> (forall h, In h hls -> ~ hasCRLF h) -> ~ hasCRLF b ->
  fields rl = m :: p :: rest ->
  decode (rawRequest rl hls b) = Some (m, p, parseHeaders (app hls [""; b]), b).
Proof. exact (decode_rawRequest_eq rl hls b m p rest). Qed.

Lemma decode_rawRequest_witness :
  decode (rawRequest "POST /files/n HTTP/1.1" ["Host: x"] "data") =
  Some ("POST", "/files/n", parseHeaders (app ["Host: x"] [""; "data"]), "data").
Proof.
  apply (decode_rawRequest _ _ _ _ _ ["HTTP/1.1"]).
  - apply crlfFree_sound. reflexivity.
  - intros h [<-|[]]. apply crlfFree_sound. reflexivity.
  - apply crlfFree_sound. reflexivity.
  - reflexivity.
Defined.

(** The body line is parsed as a header too, after every real header
    line: a body of the shape ["Name: value"] sets the lowercased [name]
    in the request's header map, overriding a header line of that name. *)
Theorem body_line_overrides_header {CT : CaseTable} (rl : string) (hls : list string)
    (b m p : string) (rest : list string) (a v : string) :
  ~ hasCRLF rl -> (forall h, In h hls -> ~ hasCRLF h) -> ~ hasCRLF b ->
  fields rl = m :: p :: rest ->
  splitN2 ":" " " b = [a; v] ->
  exists hs, decode (rawRequest rl hls b) = Some (m, p, hs, b) /\
             hs !! toLower a = Some (toLower v).
Proof.
  intros Hrl Hhls Hb Hf Hs.
  rewrite (decode_rawRequest_eq _ _ _ _ _ _ Hrl Hhls Hb Hf).
  eexists. split; [reflexivity|].
  apply parseHeaders_lookup_Some.
  exists (app hls [""]), b, [], a, v.
  split; [rewrite <- app_assoc; reflexivity|].
  split; [intros ->; discriminate|].
  repeat split; auto.
Qed.

Lemma body_line_overrides_header_witness :
  exists hs,
    decode (rawRequest "GET /user-agent HTTP/1.1" ["User-Agent: curl"]
              "User-Agent: spoof") =
    Some ("GET", "/user-agent", hs, "User-Agent: spoof") /\
    hs !! "user-agent" = Some "spoof".
Proof.
  apply (body_line_overrides_header _ _ _ _ _ ["HTTP/1.1"] "User-Agent" "spoof").
  - apply crlfFree_sound. reflexivity.
  - intros h [<-|[]]. apply crlfFree_sound. reflexivity.
  - apply crlfFree_sound. reflexivity.
  - reflexivity.
  - reflexivity.
Defined.

(* ------------------------------------------------------------------ *)
(** ** Routing                                                            *)
(* ------------------------------------------------------------------ *)

Lemma str_list_app (a b : string) :
  list_ascii_of_string (a ++ b) =
  app (list_ascii_of_string a) (list_ascii_of_string b).
Proof.
  induction a as [|x a IH]; [reflexivity|].
  rewrite sapp_cons. simpl. rewrite IH. reflexivity.
Qed.

Lemma slash_in_key (m seg : string) :
  In "/"%char (list_ascii_of_string (m ++ "/" ++ seg)).
Proof.
  rewrite str_list_app. apply in_or_app. right. left. reflexivity.
Qed.

(** The route key [method + "/" + segment] determines both parts when
    the segment holds no ['/']. *)
Lemma route_key_inj (m seg m' seg' : string) :
  ~ In "/"%char (list_ascii_of_string seg) ->
  ~ In "/"%char (list_ascii_of_string seg') ->
  m ++ "/" ++ seg = m' ++ "/" ++ seg' -> m = m' /\ seg = seg'.
Proof.
  intros Hs Hs'. revert m'.
  induction m as [|c m IH]; intros [|c' m'] H.
  - split; [reflexivity|]. injection H as H. exact H.
  - exfalso. change ("" ++ "/" ++ seg) with (String "/" seg) in H.
    rewrite sapp_cons in H. injection H as <- H.
    apply Hs. rewrite H. apply slash_in_key.
  - exfalso. change ("" ++ "/" ++ seg') with (String "/" seg') in H.
    rewrite sapp_cons in H. injection H as -> H.
    apply Hs'. rewrite <- H. apply slash_in_key.
  - rewrite !sapp_cons in H. injection H as -> H.
    destruct (IH m' H) as [-> ->]. auto.
Qed.

Lemma splitBy_slash_pieces (s x : string) :
  In x (splitBy isSlash s) -> ~ In "/"%char (list_ascii_of_string x).
Proof.
  revert x. induction s as [|c r IH]; intros x Hx.
  - destruct Hx as [<-|[]]. simpl. tauto.
  - simpl in Hx. destruct (isSlash c) eqn:Ec.
    + destruct Hx as [<-|Hx]; [simpl; tauto|]. exact (IH x Hx).
    + destruct (splitBy isSlash r) as [|h t] eqn:Er; simpl in Hx.
      * destruct Hx as [<-|[]]. simpl. intros [Hc|[]].
        subst c. discriminate.
      * destruct Hx as [<-|Hx].
        -- simpl. intros [Hc|Hin]; [subst c; discriminate|].
           apply (IH h); [left; reflexivity|exact Hin].
        -- apply (IH x). right. exact Hx.
Qed.

Lemma splitBy_slash_some (p : string) :
  In "/"%char (list_ascii_of_string p) ->
  exists x y rest, splitBy isSlash p = x :: y :: rest.
Proof.
  induction p as [|c r IH]; [intros []|]. intros Hin. simpl.
  destruct (isSlash c) eqn:Ec.
  - destruct (splitBy isSlash r) as [|h t] eqn:Er.
    + exfalso. destruct r as [|c' r]; [discriminate|].
      simpl in Er. destruct (isSlash c'); [discriminate|].
      destruct (splitBy isSlash r); discriminate.
    + eauto.
  - destruct Hin as [->|Hin]; [discriminate|].
    destruct (IH Hin) as (x & y & rest & ->). simpl. eauto.
Qed.

Ltac route_case H :=
  apply route_key_inj in H;
  [destruct H as [<- <-] | simpl; intuition discriminate | assumption].

Section Routing.

Variable FS : Type.
Variable rd : FS -> string -> ioResult.
Variable wr : FS -> string -> string -> FS * option string.

Lemma mainRouter_lookup (m seg : string) (h : Handler FS) :
  ~ In "/"%char (list_ascii_of_string seg) ->
  routes (mainRouter rd wr) !! (m ++ "/" ++ seg) = Some h <->
  (m = "GET" /\ seg = "" /\ h = mainPageHandler) \/
  (m = "GET" /\ seg = "echo" /\ h = echoHandler) \/
  (m = "GET" /\ seg = "user-agent" /\ h = userAgentHandler) \/
  (m = "GET" /\ seg = "files" /\ h = filesGetHandler rd) \/
  (m = "POST" /\ seg = "files" /\ h = filesPostHandler wr).
Proof.
  intros Hseg.
  unfold mainRouter, HandleFunc, NewRouter. cbn [routes].
  change ("POST" ++ "/files") with ("POST" ++ "/" ++ "files").
  change ("GET" ++ "/files") with ("GET" ++ "/" ++ "files").
  change ("GET" ++ "/user-agent") with ("GET" ++ "/" ++ "user-agent").
  change ("GET" ++ "/echo") with ("GET" ++ "/" ++ "echo").
  change ("GET" ++ "/") with ("GET" ++ "/" ++ "").
  rewrite !lookup_insert, lookup_empty.
  repeat case_decide;
    repeat match goal with
           | H : String.append _ (String.append "/" _) =
                 String.append m (String.append "/" seg) |- _ => route_case H
           end;
    split; intros Hh;
    repeat match goal with
           | H : Some _ = Some _ |- _ => injection H as <-
           | H : _ \/ _ |- _ => destruct H
           | H : _ /\ _ |- _ => destruct H
           end;
    subst; try discriminate; try tauto; try congruence.
Qed.

(** The route table of [main] maps a method and a first path segment
    (which never holds ['/']) to a handler exactly for the five
    registered pairs: [GET] with [""], ["echo"], ["user-agent"] or
    ["files"], and [POST] with ["files"]. *)
Theorem mainRouter_selects (m seg : string) (h : Handler FS) :
  ~ In "/"%char (list_ascii_of_string seg) ->
  routes (mainRouter rd wr) !! (m ++ "/" ++ seg) = Some h <->
  (m = "GET" /\ seg = "" /\ h = mainPageHandler) \/
  (m = "GET" /\ seg = "echo" /\ h = echoHandler) \/
  (m = "GET" /\ seg = "user-agent" /\ h = userAgentHandler) \/
  (m = "GET" /\ seg = "files" /\ h = filesGetHandler rd) \/
  (m = "POST" /\ seg = "files" /\ h = filesPostHandler wr).
Proof. exact (mainRouter_lookup m seg h). Qed.

End Routing.

(* ------------------------------------------------------------------ *)
(** ** Silent requests and storage effects of [ServeHTTP]              *)
(* ------------------------------------------------------------------ *)

(** [ServeHTTP] writes nothing exactly when the request line has fewer
    than two fields or when the path holds no ['/']; it then leaves the
    storage as it was. *)
Theorem ServeHTTP_silent {CT : CaseTable} {FS : Type} (rt : Router FS) (args : list string)
    (st : FS) (request : string) :
  (fst (ServeHTTP rt args st request) = None <->
   decode request = None \/
   exists m p hs b, decode request = Some (m, p, hs, b) /\
                    ~ In "/"%char (list_ascii_of_string p)) /\
  (fst (ServeHTTP rt args st request) = None ->
   snd (ServeHTTP rt args st request) = st).
Proof.
  unfold ServeHTTP.
  destruct (decode request) as [[[[m p] hs] b]|]; [|simpl; tauto].
  unfold dispatch.
  destruct (splitBy isSlash p) as [|x [|seg rest]] eqn:E.
  - split; [|reflexivity]. split; [intros _; right|reflexivity].
    exists m, p, hs, b. split; [reflexivity|].
    intros Hin. destruct (splitBy_slash_some p Hin) as (? & ? & ? & E').
    congruence.
  - split; [|reflexivity]. split; [intros _; right|reflexivity].
    exists m, p, hs, b. split; [reflexivity|].
    intros Hin. destruct (splitBy_slash_some p Hin) as (? & ? & ? & E').
    congruence.
  - assert (Hp : In "/"%char (list_ascii_of_string p)).
    { destruct (in_dec ascii_dec "/"%char (list_ascii_of_string p))
        as [Hin|Hnin]; [exact Hin|].
      rewrite (splitBy_slash_free p Hnin) in E. discriminate. }
    assert (Hr : ~ (Some (m, p, hs, b) = None \/
                    exists m' p' hs' b', Some (m, p, hs, b) = Some (m', p', hs', b') /\
                                         ~ In "/"%char (list_ascii_of_string p'))).
    { intros [Hd|(m' & p' & hs' & b' & Hd & Hp')]; [discriminate|].
      injection Hd as <- <- <- <-. contradiction. }
    cbv zeta.
    destruct (routes rt !! (m ++ "/" ++ seg)) as [h|].
    + destruct (h args (mkRequest p hs b) st) as [res st1].
      destruct (handleCompression _ _) as [? hw].
      cbn [fst snd]. split; [split; [discriminate|tauto]|discriminate].
    + cbn [fst snd]. split; [split; [discriminate|tauto]|discriminate].
Qed.

Lemma mainRouter_selects_witness :
  ~ In "/"%char (list_ascii_of_string "echo") /\
  routes memRouter !! ("GET" ++ "/" ++ "echo") = Some echoHandler.
Proof.
  assert (Hs : ~ In "/"%char (list_ascii_of_string "echo"))
    by (simpl; intuition discriminate).
  split; [exact Hs|].
  apply (proj2 (mainRouter_selects _ memRead memWrite "GET" "echo" echoHandler Hs)).
  right. left. auto.
Defined.

Lemma dispatch_state {CT : CaseTable} {FS : Type} (rt : Router FS) (args : list string)
    (st : FS) (m p : string) (hs : gmap string string) (b : string) :
  snd (dispatch rt args st m p hs b) =
  match splitBy isSlash p with
  | _ :: seg :: _ =>
      match routes rt !! (m ++ "/" ++ seg) with
      | Some h => snd (h args (mkRequest p hs b) st)
      | None => st
      end
  | _ => st
  end.
Proof.
  unfold dispatch.
  destruct (splitBy isSlash p) as [|x [|seg rest]]; try reflexivity.
  cbv zeta. destruct (routes rt !! (m ++ "/" ++ seg)) as [h|]; [|reflexivity].
  destruct (h args (mkRequest p hs b) st) as [res st1].
  destruct (handleCompression _ _). reflexivity.
Qed.

Lemma ServeHTTP_state {CT : CaseTable} (FS : Type) (rd : FS -> string -> ioResult)
    (wr : FS -> string -> string -> FS * option string)
    (args : list string) (st : FS) (request : string) :
  snd (ServeHTTP (mainRouter rd wr) args st request) = st \/
  exists p hs b s0 name,
    decode request = Some ("POST", p, hs, b) /\
    splitBy isSlash p = [s0; "files"; name] /\
    snd (ServeHTTP (mainRouter rd wr) args st request) =
      fst (wr st (dirPathOf args ++ name) b).
Proof.
  unfold ServeHTTP.
  destruct (decode request) as [[[[m p] hs] b]|] eqn:Hd; [|left; reflexivity].
  rewrite dispatch_state.
  destruct (splitBy isSlash p) as [|x [|seg rest]] eqn:E;
    try (left; reflexivity).
  destruct (routes (mainRouter rd wr) !! (m ++ "/" ++ seg)) as [h|] eqn:L;
    [|left; reflexivity].
  assert (Hseg : ~ In "/"%char (list_ascii_of_string seg)).
  { apply (splitBy_slash_pieces p). rewrite E. right. left. reflexivity. }
  apply (mainRouter_lookup FS rd wr m seg h Hseg) in L.
  destruct L as [(-> & -> & ->)|[(-> & -> & ->)|[(-> & -> & ->)|
                 [(-> & -> & ->)|(-> & -> & ->)]]]].
  - left. reflexivity.
  - left. unfold echoHandler. cbn [path]. rewrite E.
    destruct rest as [|? [|]]; reflexivity.
  - left. unfold userAgentHandler. cbn [headers].
    destruct (hs !! "user-agent"); reflexivity.
  - left. unfold filesGetHandler. cbn [path]. rewrite E.
    destruct rest as [|n [|]]; [reflexivity| |reflexivity].
    destruct (rd st _); reflexivity.
  - unfold filesPostHandler. cbn [path]. rewrite E.
    destruct rest as [|name [|]]; [left; reflexivity| |left; reflexivity].
    right. exists p, hs, b, x, name.
    split; [reflexivity|]. split; [exact E|].
    cbn [body]. destruct (wr st (dirPathOf args ++ name) b) as [st1 e]. reflexivity.
Qed.



(* ------------------------------------------------------------------ *)
(** ** One read of at most 1024 bytes                                   *)
(* ------------------------------------------------------------------ *)

Lemma split2_piece_length (a b : ascii) (s x : string) :
  In x (split2 a b s) -> String.length x <= String.length s.
Proof.
  enough (Hn : forall n s x, String.length s <= n -> In x (split2 a b s) ->
                 String.length x <= String.length s)
    by (intros Hx; exact (Hn _ s x (le_n _) Hx)).
  clear s x. intros n.
  induction n as [|n IH]; intros s x Hle Hx.
  - destruct s; [|simpl in Hle; lia].
    destruct Hx as [<-|[]]. simpl. lia.
  - destruct s as [|c [|d r]].
    + destruct Hx as [<-|[]]. simpl. lia.
    + destruct Hx as [<-|[]]. simpl. lia.
    + rewrite split2_cons2 in Hx. simpl in Hle |- *.
      destruct (Ascii.eqb c a && Ascii.eqb d b).
      * destruct Hx as [<-|Hx]; [simpl; lia|].
        specialize (IH r x ltac:(lia) Hx). lia.
      * destruct (split2 a b (String d r)) as [|h t] eqn:E2.
        -- destruct Hx as [<-|[]]. simpl. lia.
        -- assert (IHs : forall y, In y (h :: t) ->
                     String.length y <= String.length (String d r)).
           { intros y Hy. apply IH; [simpl; lia|]. rewrite E2. exact Hy. }
           simpl in IHs. simpl in Hx. destruct Hx as [<-|Hx].
           ++ specialize (IHs h (or_introl eq_refl)). simpl. lia.
           ++ specialize (IHs x (or_intror Hx)). lia.
Qed.

Lemma last_in_or_default {A : Type} (l : list A) (d : A) :
  In (List.last l d) l \/ List.last l d = d.
Proof.
  induction l as [|a l IH]; [right; reflexivity|].
  destruct l as [|a' l']; [left; left; reflexivity|].
  change (List.last (a :: a' :: l') d) with (List.last (a' :: l') d).
  destruct IH as [H|H]; [left; right; exact H|right; exact H].
Qed.

Lemma substring_length_le (n : nat) (s : string) :
  String.length (String.substring 0 n s) <= n.
Proof.
  revert s. induction n as [|n IH]; intros [|c s]; simpl; try lia.
  specialize (IH s). lia.
Qed.

Lemma decode_body_length {CT : CaseTable} (request m p b : string) (hs : gmap string string) :
  decode request = Some (m, p, hs, b) ->
  String.length b <= String.length request.
Proof.
  unfold decode.
  destruct (fields (hd "" (split2 CR LF request))) as [|? [|? ?]];
    try discriminate.
  intros H. injection H as _m _p _hs <-.
  destruct (last_in_or_default (split2 CR LF request) "") as [Hin| ->].
  - exact (split2_piece_length _ _ _ _ Hin).
  - simpl. lia.
Qed.

(** A connection is served from a single read of at most 1024 bytes: the
    only storage change a connection can make is one write whose content
    is at most 1024 bytes long, however long the client's data is. *)
Theorem handleConnection_write_bound {CT : CaseTable} (FS : Type)
    (rd : FS -> string -> ioResult)
    (wr : FS -> string -> string -> FS * option string)
    (args : list string) (st : FS) (pending : string)
    (o : option string) (st' : FS) :
  handleConnection (mainRouter rd wr) args st pending = (o, st') ->
  st' = st \/
  exists target data, String.length data <= 1024 /\
                      st' = fst (wr st target data).
Proof.
  intros H.
  replace st' with (snd (handleConnection (mainRouter rd wr) args st pending))
    by (rewrite H; reflexivity).
  clear H. unfold handleConnection.
  destruct pending as [|c r]; [left; reflexivity|].
  destruct (ServeHTTP_state FS rd wr args st
              (String.substring 0 1024 (String c r)))
    as [Hs|(p & hs & b & s0 & name & Hd & _ & Hs)];
    [left; exact Hs|right].
  exists (dirPathOf args ++ name), b. split; [|exact Hs].
  pose proof (decode_body_length _ _ _ _ _ Hd) as Hb.
  pose proof (substring_length_le 1024 (String c r)). lia.
Qed.

Lemma handleConnection_write_bound_witness :
  exists o st',
    handleConnection memRouter ["server"; "--directory"; "/tmp/"] ∅
      (rawRequest "POST /files/a.txt HTTP/1.1" [] "hello") = (o, st') /\
    (st' = ∅ \/
     exists target data, String.length data <= 1024 /\
                         st' = fst (memWrite ∅ target data)).
Proof.
  exists (fst (handleConnection memRouter ["server"; "--directory"; "/tmp/"] ∅
                 (rawRequest "POST /files/a.txt HTTP/1.1" [] "hello"))),
         (snd (handleConnection memRouter ["server"; "--directory"; "/tmp/"] ∅
                 (rawRequest "POST /files/a.txt HTTP/1.1" [] "hello"))).
  assert (Hr : handleConnection memRouter ["server"; "--directory"; "/tmp/"] ∅
      (rawRequest "POST /files/a.txt HTTP/1.1" [] "hello") =
    (fst (handleConnection memRouter ["server"; "--directory"; "/tmp/"] ∅
            (rawRequest "POST /files/a.txt HTTP/1.1" [] "hello")),
     snd (handleConnection memRouter ["server"; "--directory"; "/tmp/"] ∅
            (rawRequest "POST /files/a.txt HTTP/1.1" [] "hello"))))
    by (vm_compute; reflexivity).
  split; [exact Hr|].
  exact (handleConnection_write_bound _ memRead memWrite _ _ _ _ _ Hr).
Defined.

(* ------------------------------------------------------------------ *)
(** ** Upload then download through the server                          *)
(* ------------------------------------------------------------------ *)

Lemma files_slash_free : ~ In "/"%char (list_ascii_of_string "files").
Proof. simpl. intuition discriminate. Qed.

(** Through the whole server: a [POST /files/<name>] whose write
    succeeds, followed by a [GET] of a path whose segments are
    [_ / files / <name>], answers 200 with the uploaded body, with
    [Content-Type: application/octet-stream] and the body's length as
    its first two headers. *)
Theorem ServeHTTP_upload_download {CT : CaseTable} (FS : Type)
    (rd : FS -> string -> ioResult)
    (wr : FS -> string -> string -> FS * option string)
    (args : list string) (st st' : FS)
    (rl : string) (hls : list string) (b p : string) (rest : list string)
    (rl' : string) (hls' : list string) (b' p' : string) (rest' : list string)
    (s0 s0' name : string) :
  (forall st0 q d st1, wr st0 q d = (st1, None) -> rd st1 q = IOk d) ->
  ~ hasCRLF rl -> (forall h, In h hls -> ~ hasCRLF h) -> ~ hasCRLF b ->
  fields rl = "POST" :: p :: rest -> splitBy isSlash p = [s0; "files"; name] ->
  ~ hasCRLF rl' -> (forall h, In h hls' -> ~ hasCRLF h) -> ~ hasCRLF b' ->
  fields rl' = "GET" :: p' :: rest' -> splitBy isSlash p' = [s0'; "files"; name] ->
  wr st (dirPathOf args ++ name) b = (st', None) ->
  exists hw,
    ServeHTTP (mainRouter rd wr) args
      (snd (ServeHTTP (mainRouter rd wr) args st (rawRequest rl hls b)))
      (rawRequest rl' hls' b') =
      (Some (writeResponse 200 "OK" b hw), st') /\
    firstn 2 hw = [mkHeader "Content-Type" "application/octet-stream";
                   mkHeader "Content-Length" (itoa (len b))].
Proof.
  intros Hlaw Hrl Hhls Hb Hf Hp Hrl' Hhls' Hb' Hf' Hp' Hw.
  assert (LP : @lookup string (list string -> Request -> FS -> Response * FS) _ _
                 ("POST" ++ "/" ++ "files") (routes (mainRouter rd wr)) =
               Some (filesPostHandler wr)).
  { apply (proj2 (mainRouter_lookup FS rd wr "POST" "files" _ files_slash_free)).
    right. right. right. right. auto. }
  assert (LG : @lookup string (list string -> Request -> FS -> Response * FS) _ _
                 ("GET" ++ "/" ++ "files") (routes (mainRouter rd wr)) =
               Some (filesGetHandler rd)).
  { apply (proj2 (mainRouter_lookup FS rd wr "GET" "files" _ files_slash_free)).
    right. right. right. left. auto. }
  assert (Hpost : snd (ServeHTTP (mainRouter rd wr) args st (rawRequest rl hls b))
                  = st').
  { unfold ServeHTTP. rewrite (decode_rawRequest_eq _ _ _ _ _ _ Hrl Hhls Hb Hf).
    rewrite dispatch_state, Hp, LP.
    unfold filesPostHandler. cbn [path body]. rewrite Hp, Hw. reflexivity. }
  rewrite Hpost.
  unfold ServeHTTP. rewrite (decode_rawRequest_eq _ _ _ _ _ _ Hrl' Hhls' Hb' Hf').
  unfold dispatch. rewrite Hp', LG. cbv zeta.
  unfold filesGetHandler at 1. cbn [path]. rewrite Hp', (Hlaw _ _ _ _ Hw).
  cbn [statusCode reason resBody contentType].
  destruct (handleCompression _ _) as [c hw] eqn:Hc.
  exists hw. split; [reflexivity|].
  unfold handleCompression in Hc. cbn [headers] in Hc.
  destruct (_ !! "accept-encoding") as [enc|];
    [destruct (String.eqb (toLower enc) "gzip")|];
    injection Hc as _ <-; reflexivity.
Qed.

Lemma ServeHTTP_upload_download_witness :
  exists hw,
    ServeHTTP memRouter ["server"; "--directory"; "/tmp/"]
      (snd (ServeHTTP memRouter ["server"; "--directory"; "/tmp/"] ∅
              (rawRequest "POST /files/a.txt HTTP/1.1" [] "hello")))
      (rawRequest "GET /files/a.txt HTTP/1.1" ["Accept-Encoding: gzip"] "") =
      (Some (writeResponse 200 "OK" "hello" hw),
       <["/tmp/a.txt" := "hello"]> ∅) /\
    firstn 2 hw = [mkHeader "Content-Type" "application/octet-stream";
                   mkHeader "Content-Length" (itoa (len "hello"))].
Proof.
  apply (ServeHTTP_upload_download _ memRead memWrite _ _ _
           _ _ _ "/files/a.txt" ["HTTP/1.1"] _ _ _ "/files/a.txt" ["HTTP/1.1"]
           "" "" "a.txt").
  - intros st0 q d st1 H. injection H as <-. unfold memRead.
    rewrite lookup_insert_eq. reflexivity.
  - apply crlfFree_sound. reflexivity.
  - intros h [].
  - apply crlfFree_sound. reflexivity.
  - reflexivity.
  - reflexivity.
  - apply crlfFree_sound. reflexivity.
  - intros h [<-|[]]. apply crlfFree_sound. reflexivity.
  - apply crlfFree_sound. reflexivity.
  - reflexivity.
  - reflexivity.
  - reflexivity.
Defined.

(* ------------------------------------------------------------------ *)
(** ** Header lines without the separator                               *)
(* ------------------------------------------------------------------ *)

(** A header line that holds no [": "] (for instance ["Name:value"]
    without the space) is skipped by [parseHeaders], wherever it stands
    among the lines. *)
Theorem parseHeaders_skips_malformed {CT : CaseTable} (pre post : list string) (l : string) :
  (forall p q, l <> p ++ ": " ++ q) ->
  parseHeaders (app pre (l :: post)) = parseHeaders (app pre post).
Proof.
  intros Hno. unfold parseHeaders. rewrite !fold_left_app. cbn [fold_left].
  rewrite (splitN2_none l Hno).
  destruct (String.eqb l EmptyString); reflexivity.
Qed.

Lemma splitN2_found (s p q : string) :
  s = p ++ ": " ++ q -> exists k v, splitN2 ":" " " s = [k; v].
Proof.
  revert s. induction p as [|c p IH]; intros s ->.
  - exists "", q. reflexivity.
  - rewrite sapp_cons.
    assert (Htl : exists y rest, p ++ ": " ++ q = String y rest)
      by (destruct p; simpl; eauto).
    destruct Htl as (y & rest & Etl). rewrite Etl, splitN2_cons2.
    destruct (Ascii.eqb c ":" && Ascii.eqb y " "); [eauto|].
    destruct (IH (String y rest) (eq_sym Etl)) as (k & v & ->).
    exists (String c k), v. reflexivity.
Qed.

Lemma parseHeaders_skips_malformed_witness :
  (forall p q, "Accept-Encoding:gzip" <> p ++ ": " ++ q) /\
  parseHeaders (app ["Host: x"] ["Accept-Encoding:gzip"]) =
  parseHeaders (app ["Host: x"] []).
Proof.
  assert (Hno : forall p q, "Accept-Encoding:gzip" <> p ++ ": " ++ q).
  { intros p q H. destruct (splitN2_found _ p q H) as (k & v & E).
    vm_compute in E. discriminate E. }
  split; [exact Hno|].
  exact (parseHeaders_skips_malformed ["Host: x"] [] _ Hno).
Defined.

(** The request line is split by [strings.Fields] on Unicode white space:
    a request line whose method, path and version are separated by
    U+00A0 (NO-BREAK SPACE, the bytes C2 A0) is served like the one with
    ASCII spaces, for every case table. *)
Theorem echo_nbsp_separated_request {CT : CaseTable} :
  let nbsp := String (ascii_of_nat 194) (String (ascii_of_nat 160) EmptyString) in
  forall (FS : Type) (rd : FS -> string -> ioResult)
         (wr : FS -> string -> string -> FS * option string)
         (args : list string) (st : FS),
    ServeHTTP (mainRouter rd wr) args st
      ("GET" ++ nbsp ++ "/echo/abc" ++ nbsp ++ "HTTP/1.1" ++ CRLF
       ++ "Host: x" ++ CRLF ++ CRLF)
    = (Some ("HTTP/1.1 200 OK" ++ CRLF
             ++ "Content-Type: text/plain" ++ CRLF
             ++ "Content-Length: 3" ++ CRLF
             ++ CRLF ++ "abc" ++ CRLF), st).
Proof.
  intros nbsp FS rd wr args st. reflexivity.
Qed.

(** [parseHeaders] lowercases a non-ASCII header value rune by rune with
    [unicode.ToLower]: the value "ÀB" (bytes C3 80 42) is stored as
    the encoding of the table's lowercase of U+00C0 (dropped when it is
    negative) followed by "b". *)
Theorem parseHeaders_lowers_unicode_value {CT : CaseTable} :
  parseHeaders ["X-Name: " ++ String (ascii_of_nat 195) (String (ascii_of_nat 128) "B")]
    !! "x-name"
  = Some ((if (caseLower 192 <? 0)%Z then EmptyString else encodeRune (caseLower 192))
          ++ "b").
Proof.
  vm_compute. reflexivity.
Qed.
